(** * Persistence managers of the e-commerce catalog

    A shallow embedding of the two data-access classes of the repository:

    - [ProductManager] (src/Entregable_03/src/ProductManager.js), the
      file-backed product store: every operation reads the whole JSON file,
      works on the parsed array and rewrites the whole file;
    - [CartManagerMongo] (the cart manager over Mongoose), whose operations
      read a cart with its line items populated, edit the array of line
      items in memory and write it back with one [findOneAndUpdate].

    Modelling decisions.

    - JavaScript values that occur as product fields are the primitives
      ([value]).  Numbers are the integers [Z]: identifiers, stock and
      quantities are integer-valued doubles far inside the range in which
      double arithmetic is exact.  [NaN] is a value of its own, because
      [undefined + 1] produces it and [JSON.stringify] turns it into [null].
    - An object is a finite map from property names to values; reading a
      property that is absent gives [undefined] ([prop]).
    - The product file is modelled by the JSON document it denotes
      ([contents]): [None] stands for a file that cannot be read or whose
      text [JSON.parse] rejects.  [JSON.stringify] drops the properties
      whose value is [undefined] and writes [NaN] as [null].
    - The conversion of a string to a number is the runtime's; the
      development is parametric in it ([StringToNumber]).
    - A call returns a value or throws; [try { } catch { }] is [try_catch].
      The [undefined] a catch block returns is [None] for the product
      manager, and [Undefined] for the cart manager, one of whose
      operations also returns [null].
      [async]/[await] is sequential here: one call runs at a time.
    - The database is a map from cart identifiers to lists of line items
      and a catalog of product documents.  What Mongoose does is written
      out where the cart manager relies on it: [populate] with [lean]
      replaces each product reference by the product's plain object,
      [$set] casts the items back to the schema, and a query against a
      database that is not connected throws.
    - [getCarts], [addCart] and [updateAllProductsOfCart] are not needed
      by the properties below and are left out. *)

From Stdlib Require Import ZArith Bool Lia Sorted.
From stdpp Require Import base option list strings gmap fin_maps pretty.

Open Scope string_scope.
Open Scope Z_scope.

(** ** JavaScript values *)

(** What a JSON text can hold in a product field. *)
Inductive json : Type :=
| JNull
| JBool (b : bool)
| JNum (n : Z)
| JStr (s : string).

(** The primitives of the language. *)
Inductive value : Type :=
| VUndefined
| VNull
| VBool (b : bool)
| VNum (n : Z)
| VNaN
| VStr (s : string).

#[global] Instance json_eq_dec : EqDecision json.
Proof. solve_decision. Defined.

#[global] Instance value_eq_dec : EqDecision value.
Proof. solve_decision. Defined.

(** An object in memory and an object in the file. *)
Abbreviation object := (gmap string value).
Abbreviation document := (gmap string json).

(** [o.k]: the property, [undefined] when the object has none. *)
Definition prop (o : object) (k : string) : value :=
  default VUndefined (o !! k).

(** [!v] is [negb (ToBoolean v)]. *)
Definition ToBoolean (v : value) : bool :=
  match v with
  | VUndefined | VNull | VNaN => false
  | VBool b => b
  | VNum n => negb (n =? 0)
  | VStr s => negb (String.eqb s EmptyString)
  end.

(** [a === b] on primitives: same type and same value; [NaN] equals
    nothing. *)
Definition StrictEquals (a b : value) : bool :=
  match a, b with
  | VUndefined, VUndefined => true
  | VNull, VNull => true
  | VBool x, VBool y => Bool.eqb x y
  | VNum x, VNum y => x =? y
  | VStr x, VStr y => String.eqb x y
  | _, _ => false
  end.

(** A number: [None] is [NaN]. *)
Definition number := option Z.

Definition number_eq (x y : number) : bool :=
  match x, y with
  | Some a, Some b => a =? b
  | _, _ => false
  end.

Definition ToString (v : value) : string :=
  match v with
  | VUndefined => "undefined"
  | VNull => "null"
  | VBool true => "true"
  | VBool false => "false"
  | VNum n => pretty n
  | VNaN => "NaN"
  | VStr s => s
  end.

(** ** JSON.parse and JSON.stringify on the product list *)

Definition JSON_parse_value (j : json) : value :=
  match j with
  | JNull => VNull
  | JBool b => VBool b
  | JNum n => VNum n
  | JStr s => VStr s
  end.

(** [None]: the property is left out of the text. *)
Definition JSON_stringify_value (v : value) : option json :=
  match v with
  | VUndefined => None
  | VNull => Some JNull
  | VBool b => Some (JBool b)
  | VNum n => Some (JNum n)
  | VNaN => Some JNull
  | VStr s => Some (JStr s)
  end.

Definition JSON_parse (d : list document) : list object :=
  map (fmap JSON_parse_value) d.

Definition JSON_stringify (l : list object) : list document :=
  map (omap JSON_stringify_value) l.

(** ** The file system, and calls that return or throw *)

Record fs : Type := {
  contents : option (list document);
  writable : bool
}.

Inductive exn : Type :=
| TypeError
| ReferenceError
| IOError
| CastError.

Inductive outcome (A : Type) : Type :=
| Returns (a : A)
| Throws (e : exn).
Arguments Returns {A} a.
Arguments Throws {A} e.

Definition M (S A : Type) : Type := S → outcome A * S.

Definition ret {S A} (a : A) : M S A := fun st => (Returns a, st).

Definition throw {S A} (e : exn) : M S A := fun st => (Throws e, st).

Definition bind {S A B} (c : M S A) (k : A → M S B) : M S B :=
  fun st =>
    match c st with
    | (Returns a, st') => k a st'
    | (Throws e, st') => (Throws e, st')
    end.

Definition try_catch {S A} (body : M S A) (handler : exn → M S A) : M S A :=
  fun st =>
    match body st with
    | (Returns a, st') => (Returns a, st')
    | (Throws e, st') => handler e st'
    end.

Declare Scope js_scope.
Delimit Scope js_scope with js.
Notation "x <- c ;; k" := (bind c (fun x => k))
  (at level 100, c at next level, right associativity) : js_scope.
Notation "c ;;; k" := (bind c (fun _ => k))
  (at level 100, right associativity) : js_scope.

(** [fs.promises.readFile] followed by [JSON.parse]. *)
Definition readFile : M fs (list document) :=
  fun st =>
    match contents st with
    | Some d => (Returns d, st)
    | None => (Throws IOError, st)
    end.

(** [fs.promises.writeFile]: the whole file is replaced. *)
Definition writeFile (d : list document) : M fs unit :=
  fun st =>
    if writable st
    then (Returns tt, {| contents := Some d; writable := true |})
    else (Throws IOError, st).

(** A method called on [undefined] throws. *)
Definition array {S A} (x : option A) : M S A :=
  match x with
  | Some l => ret l
  | None => throw TypeError
  end.

(** The argument of [addProduct] and [updateProduct]: destructuring
    [undefined] or [null] throws, anything else is read as an object. *)
Inductive argument : Type :=
| Nullish
| Obj (o : object).

Definition destructure {S} (a : argument) : M S object :=
  match a with
  | Nullish => throw TypeError
  | Obj o => ret o
  end.

(** ** The cart database *)

(** A call that can return [undefined], [null] or a result. *)
Inductive nullable (A : Type) : Type :=
| Undefined
| Null
| Value (a : A).
Arguments Undefined {A}.
Arguments Null {A}.
Arguments Value {A} a.

(** A product document of the database. *)
Record productDoc : Type := {
  _id : string;
  fields : object
}.

(** Modelled from the spec: the cart schema (models/cart.model.js is not
    among the sources).  A cart is an ordered collection of line items,
    each a reference to a product document plus a quantity; a line item
    inserted without a quantity gets quantity 1.  Identifiers are the hex
    strings of the database's ObjectIds.  A reference or a quantity can
    be [null] in the database ([None]). *)
Record lineItem : Type := {
  product_ref : option string;
  stored_quantity : option Z
}.

Definition defaultQuantity : Z := 1.

Record db : Type := {
  carts : gmap string (list lineItem);
  catalog : gmap string object;
  connected : bool
}.

(** What [item.product] holds in memory: after [populate] with [lean] the
    product document as a plain object, or [null] when the reference
    resolves to no product; an ObjectId when the code has put one. *)
Inductive ref : Type :=
| Doc (p : productDoc)
| RefNull
| Id (id : string).

Record item : Type := {
  product : ref;
  quantity : value
}.

Record cart : Type := {
  products : list item
}.

(** [String(x)] for what [item.product] holds: a plain object has no
    [toString] of its own. *)
Definition StringOf (r : ref) : string :=
  match r with
  | Doc _ => "[object Object]"
  | RefNull => "null"
  | Id id => id
  end.

(** ** A conversion for the closed examples

    [Number(s)] on the strings the examples below use: the empty string
    is 0, a string of decimal digits is its value, and a string with any
    other character in it is [NaN]. *)
Definition digit (c : Ascii.ascii) : option Z :=
  let n := Z.of_N (Ascii.N_of_ascii c) in
  if (48 <=? n) && (n <=? 57) then Some (n - 48) else None.

Fixpoint digits (s : string) (acc : Z) : number :=
  match s with
  | EmptyString => Some acc
  | String c rest =>
      match digit c with
      | Some d => digits rest (10 * acc + d)
      | None => None
      end
  end.

Definition decimal (s : string) : number := digits s 0.

(** ** Sample data for the closed examples *)

Definition product_doc (id : Z) (code : string) : document :=
  <["id" := JNum id]> (<["title" := JStr "lamp"]>
  (<["description" := JStr "desk lamp"]> (<["price" := JNum 5]>
  (<["thumbnail" := JStr "lamp.png"]> (<["code" := JStr code]>
  (<["stock" := JNum 3]> ∅)))))).

Definition payload (code : string) (stock : Z) : object :=
  <["title" := VStr "lamp"]> (<["description" := VStr "desk lamp"]>
  (<["price" := VNum 5]> (<["thumbnail" := VStr "lamp.png"]>
  (<["code" := VStr code]> (<["stock" := VNum stock]> ∅))))).

(** A file whose records are in the order the manager itself produces. *)
Definition ordered_file : fs :=
  {| contents := Some [product_doc 1 "a"; product_doc 2 "b"]; writable := true |}.


(** Identifiers of the database. *)
Definition cart1 : string := "64f1c0ffee0000000000c001".
Definition lamp_id : string := "64f1c0ffee0000000000a001".

(** One cart with one line item, for a product of the catalog. *)
Definition sample_db : db :=
  {| carts :=
       {[ cart1 := [ {| product_ref := Some lamp_id; stored_quantity := Some 1 |} ] ]};
     catalog := {[ lamp_id := ({[ "title" := VStr "lamp" ]} : object) ]};
     connected := true |}.


Definition missing_file : fs := {| contents := None; writable := true |}.

(** A database with three products and two carts; the first line item of
    the second cart names a product that is no longer in the catalog. *)
Definition chair_id : string := "64f1c0ffee0000000000a002".
Definition stool_id : string := "64f1c0ffee0000000000a003".
Definition gone_id : string := "64f1c0ffee0000000000a009".
Definition cart2 : string := "64f1c0ffee0000000000c002".

Definition line (pid : string) (q : Z) : lineItem :=
  {| product_ref := Some pid; stored_quantity := Some q |}.

Definition shop_db : db :=
  {| carts :=
       {[ cart1 := [line lamp_id 1; line chair_id 2; line lamp_id 5];
          cart2 := [line gone_id 1; line chair_id 1] ]};
     catalog :=
       {[ lamp_id := ({[ "title" := VStr "lamp" ]} : object);
          chair_id := ({[ "title" := VStr "chair" ]} : object);
          stool_id := ({[ "title" := VStr "stool" ]} : object) ]};
     connected := true |}.

Definition offline_db : db :=
  {| carts := carts shop_db; catalog := catalog shop_db; connected := false |}.

Section Managers.

(** [Number(s)] for a string [s], the runtime's conversion. *)
Variable StringToNumber : string → number.

(** ** Operators that convert their operands *)

Definition ToNumber (v : value) : number :=
  match v with
  | VUndefined => None
  | VNull => Some 0
  | VBool true => Some 1
  | VBool false => Some 0
  | VNum n => Some n
  | VNaN => None
  | VStr s => StringToNumber s
  end.

(** [a == b] on primitives. *)
Definition LooseEquals (a b : value) : bool :=
  match a, b with
  | (VUndefined | VNull), (VUndefined | VNull) => true
  | (VUndefined | VNull), _ => false
  | _, (VUndefined | VNull) => false
  | VStr x, VStr y => String.eqb x y
  | _, _ => number_eq (ToNumber a) (ToNumber b)
  end.

(** [a + b]: concatenation as soon as one side is a string. *)
Definition plus (a b : value) : value :=
  match a, b with
  | VStr _, _ | _, VStr _ => VStr (ToString a +:+ ToString b)
  | _, _ =>
      match ToNumber a, ToNumber b with
      | Some x, Some y => VNum (x + y)
      | _, _ => VNaN
      end
  end.

(** [a - b]: always numeric. *)
Definition minus (a b : value) : value :=
  match ToNumber a, ToNumber b with
  | Some x, Some y => VNum (x - y)
  | _, _ => VNaN
  end.

(** [arr[i]] for an array: an element for an index in range, [undefined]
    for any other key. *)
Definition index {A} (arr : list A) (i : value) : option A :=
  match i with
  | VNum n => if 0 <=? n then arr !! Z.to_nat n else None
  | _ => None
  end.

(** ** ProductManager (src/Entregable_03/src/ProductManager.js) *)

Definition getProducts : M fs (option (list object)) :=
  try_catch
    (productList <- readFile ;;
     ret (Some (JSON_parse productList)))%js
    (fun err => ret None).

(** The catch block has no binding and its message reads [err], which is
    not declared: evaluating the message throws. *)
Definition getProductById (productID : value) : M fs (option object) :=
  try_catch
    (productList <- getProducts ;;
     l <- array productList ;;
     match List.find (fun prod => StrictEquals (prop prod "id") productID) l with
     | Some productSearch => ret (Some productSearch)
     | None => ret None
     end)%js
    (fun _ => throw ReferenceError).

Definition getNewID : M fs value :=
  try_catch
    (productList <- getProducts ;;
     l <- array productList ;;
     if (length l =? 0)%nat then ret (VNum 1)
     else
       lastProductAdd <- array (l !! (length l - 1)%nat) ;;
       ret (plus (prop lastProductAdd "id") (VNum 1)))%js
    (fun err => ret VUndefined).

(** The object literal [{ id, title, description, price, thumbnail, code,
    stock }]. *)
Definition newRecord (id title description price thumbnail code stock : value)
  : object :=
  <["stock" := stock]> (<["code" := code]> (<["thumbnail" := thumbnail]>
  (<["price" := price]> (<["description" := description]>
  (<["title" := title]> (<["id" := id]> ∅)))))).

Definition addProduct (newProduct : argument) : M fs (option object) :=
  try_catch
    (o <- destructure newProduct ;;
     let title := prop o "title" in
     let description := prop o "description" in
     let price := prop o "price" in
     let thumbnail := prop o "thumbnail" in
     let code := prop o "code" in
     let stock := prop o "stock" in
     if negb (ToBoolean title) || negb (ToBoolean description)
        || negb (ToBoolean price) || negb (ToBoolean thumbnail)
        || negb (ToBoolean code) || negb (ToBoolean stock)
     then ret None
     else
       productList <- getProducts ;;
       l <- array productList ;;
       if existsb (fun product => StrictEquals (prop product "code") code) l
       then ret None
       else
         id <- getNewID ;;
         let l' := (l ++ [newRecord id title description price thumbnail code stock])%list in
         writeFile (JSON_stringify l') ;;;
         ret (index l' (minus id (VNum 1))))%js
    (fun err => ret None).

(** No [try] here: whatever is thrown reaches the caller. *)
Definition deleteProduct (productID : value) : M fs (list object) :=
  (productList <- getProducts ;;
   l <- array productList ;;
   let newProductList :=
     List.filter (fun product => negb (LooseEquals (prop product "id") productID)) l in
   writeFile (JSON_stringify newProductList) ;;;
   ret newProductList)%js.

(** The object literal [{ ...product, title, description, price, thumbnail,
    code, stock }]. *)
Definition spreadUpdate (product : object)
    (title description price thumbnail code stock : value) : object :=
  <["stock" := stock]> (<["code" := code]> (<["thumbnail" := thumbnail]>
  (<["price" := price]> (<["description" := description]>
  (<["title" := title]> product))))).

Definition updateProduct (productID : value) (productToChanged : argument)
  : M fs (option (list object)) :=
  try_catch
    (o <- destructure productToChanged ;;
     let title := prop o "title" in
     let description := prop o "description" in
     let price := prop o "price" in
     let thumbnail := prop o "thumbnail" in
     let code := prop o "code" in
     let stock := prop o "stock" in
     productList <- getProducts ;;
     l <- array productList ;;
     let updatedProductList :=
       map (fun product =>
              if StrictEquals (prop product "id") productID
              then spreadUpdate product title description price thumbnail code stock
              else product) l in
     writeFile (JSON_stringify updatedProductList) ;;;
     ret (Some updatedProductList))%js
    (fun err => ret None).


(** [fs.writeFileSync(path, data)]: there is no file to open at the empty
    path. *)
Definition writeFileSync (path : string) (d : list document) : M fs unit :=
  if String.eqb path EmptyString then throw IOError else writeFile d.

(** [constructor(path)], for the path of the product file given as a
    string: the file is written only when [!this.path]. *)
Definition constructor (path : string) : M fs unit :=
  if negb (ToBoolean (VStr path)) then writeFileSync path (JSON_stringify [])
  else ret tt.

(** ** CartManagerMongo (the cart manager over Mongoose) *)

(** A query runs only against a connected database. *)
Definition exec {A} (q : db → A) : M db A :=
  fun st => if connected st then (Returns (q st), st) else (Throws IOError, st).

(** [populate('products.product')] with [lean()]: a reference is
    replaced by the plain object of the product document it names, or by
    [null] when the catalog has no such product. *)
Definition populate (st : db) (li : lineItem) : item :=
  {| product :=
       match product_ref li with
       | Some pid =>
           match catalog st !! pid with
           | Some o => Doc {| _id := pid; fields := o |}
           | None => RefNull
           end
       | None => RefNull
       end;
     quantity :=
       match stored_quantity li with
       | Some n => VNum n
       | None => VNull
       end |}.

(** [model.findOne({ _id }).populate('products.product').lean().exec()] *)
Definition findOne_populate_lean (cartID : string) : M db (nullable cart) :=
  exec (fun st =>
          match carts st !! cartID with
          | Some lis => Value {| products := map (populate st) lis |}
          | None => Null
          end).

Definition getCartById (cartID : string) : M db (nullable cart) :=
  try_catch (findOne_populate_lean cartID) (fun error => ret Undefined).

(** Modelled from the spec: [getProductById] of the Mongo product manager
    (dao/ProductManager.mongo.js is not among the sources), a lookup by
    identifier that catches its own errors and returns the product
    document, or nothing when there is none. *)
Definition productManager_getProductById (productId : string)
  : M db (option productDoc) :=
  try_catch
    (exec (fun st =>
             match catalog st !! productId with
             | Some o => Some {| _id := productId; fields := o |}
             | None => None
             end))
    (fun error => ret None).

(** [cart.products] throws when [cart] is [null] or [undefined]. *)
Definition member {S A} (c : nullable A) : M S A :=
  match c with
  | Value a => ret a
  | _ => throw TypeError
  end.

(** Mongoose casts what [$set] receives to the schema: a populated
    product back to its identifier, the quantity to a number, with the
    schema's default for a quantity that is absent. *)
Definition castProduct (r : ref) : option string :=
  match r with
  | Doc p => Some (_id p)
  | RefNull => None
  | Id id => Some id
  end.

Definition castQuantity (v : value) : M db (option Z) :=
  match v with
  | VUndefined => ret (Some defaultQuantity)
  | VNull => ret None
  | VBool b => ret (Some (if b then 1 else 0))
  | VNum n => ret (Some n)
  | VNaN => throw CastError
  | VStr s =>
      if String.eqb s EmptyString then ret None
      else match StringToNumber s with
           | Some n => ret (Some n)
           | None => throw CastError
           end
  end.

Fixpoint castItems (l : list item) : M db (list lineItem) :=
  match l with
  | [] => ret []
  | it :: rest =>
      (q <- castQuantity (quantity it) ;;
       lis <- castItems rest ;;
       ret ({| product_ref := castProduct (product it);
               stored_quantity := q |} :: lis))%js
  end.

(** [model.findOneAndUpdate({ _id }, { $set: { products } }, { new: true })]:
    the updated cart, or [null] when no cart has this identifier. *)
Definition findOneAndUpdate (cartId : string) (l : list item)
  : M db (nullable (list lineItem)) :=
  (lis <- castItems l ;;
   fun st =>
     if connected st then
       match carts st !! cartId with
       | Some _ =>
           (Returns (Value lis),
            {| carts := <[cartId := lis]> (carts st);
               catalog := catalog st;
               connected := connected st |})
       | None => (Returns Null, st)
       end
     else (Throws IOError, st))%js.

(** [item.quantity = q]: the item keeps its product. *)
Definition set_quantity (it : item) (q : value) : item :=
  {| product := product it; quantity := q |}.

(** [x++] *)
Definition increment (v : value) : value :=
  match ToNumber v with
  | Some n => VNum (n + 1)
  | None => VNaN
  end.

(** [cart.products.find(item => String(item.product) === String(productId))]:
    the first such item, with its position, because the code then writes
    to that very element of the array. *)
Definition findItem (productId : string) (l : list item) : option (nat * item) :=
  list_find (fun it => StringOf (product it) = productId) l.

Definition addProductToCart (cartId productId : string)
  : M db (nullable (list lineItem)) :=
  try_catch
    (cart <- getCartById cartId ;;
     found <- productManager_getProductById productId ;;
     match found with
     | None => ret Undefined
     | Some product0 =>
         c <- member cart ;;
         let products' :=
           match findItem productId (products c) with
           | Some (i, productExist) =>
               <[i := set_quantity productExist (increment (quantity productExist))]>
                 (products c)
           | None =>
               (products c ++ [{| product := Id (_id product0);
                                  quantity := VUndefined |}])%list
           end in
         findOneAndUpdate cartId products'
     end)%js
    (fun error => ret Undefined).

(** [cart.products.findIndex(item => String(item.product._id) === String(productId))]:
    reading [_id] of [null] throws; an ObjectId is its own [_id]. *)
Fixpoint findIndex_id (productId : string) (l : list item) (i : nat)
  : M db (option nat) :=
  match l with
  | [] => ret None
  | it :: rest =>
      match product it with
      | RefNull => throw TypeError
      | Doc p =>
          if String.eqb (_id p) productId then ret (Some i)
          else findIndex_id productId rest (S i)
      | Id id =>
          if String.eqb id productId then ret (Some i)
          else findIndex_id productId rest (S i)
      end
  end.

Definition deleteOneProductfromCart (cartId productId : string)
  : M db (nullable (list lineItem)) :=
  try_catch
    (cart <- getCartById cartId ;;
     c <- member cart ;;
     productIndex <- findIndex_id productId (products c) 0%nat ;;
     match productIndex with
     | Some i => findOneAndUpdate cartId (take i (products c) ++ drop (S i) (products c))%list
     | None => ret Undefined
     end)%js
    (fun error => ret Undefined).

(** [isNaN(v)] *)
Definition isNaN (v : value) : bool :=
  match ToNumber v with
  | Some _ => false
  | None => true
  end.

Definition updateQuantityOfProduct (cartId productId : string)
    (newQuantity : argument) : M db (nullable (list lineItem)) :=
  try_catch
    (cart <- getCartById cartId ;;
     found <- productManager_getProductById productId ;;
     match found with
     | None => ret Undefined
     | Some product0 =>
         c <- member cart ;;
         match findItem productId (products c) with
         | Some (i, productExistInCart) =>
             body <- destructure newQuantity ;;
             let parsedQuantity := prop body "quantity" in
             if negb (isNaN parsedQuantity) then
               findOneAndUpdate cartId
                 (<[i := set_quantity productExistInCart parsedQuantity]> (products c))
             else ret Undefined
         | None => ret Null
         end
     end)%js
    (fun error => ret Undefined).

Definition deleteAllProductsfromCart (cartId : string)
  : M db (nullable (list lineItem)) :=
  try_catch (findOneAndUpdate cartId []) (fun error => ret Undefined).

(** The argument of [updateAllProductsOfCart], read as
    [newProductList.payload.docs]: the read throws when [newProductList]
    or its [payload] is [undefined] or [null]; [docs] is something that is
    not an array, or an array of product documents. *)
Inductive productPage : Type :=
| NoPayload
| NotAnArray
| Docs (docs : list productDoc).

Definition updateAllProductsOfCart (cartId : string) (newProductList : productPage)
  : M db (nullable (list lineItem)) :=
  try_catch
    (cart <- getCartById cartId ;;
     match newProductList with
     | NoPayload => throw TypeError
     | NotAnArray => ret Undefined
     | Docs docs =>
         if (length docs =? 0)%nat then ret Undefined
         else
           c <- member cart ;;
           let products' :=
             map (fun product0 => {| product := Id (_id product0);
                                     quantity := VNum 1 |}) docs in
           findOneAndUpdate cartId products'
     end)%js
    (fun error => ret Undefined).

(** ** Vocabulary of the properties *)

(** The fields [addProduct] requires and [updateProduct] overrides. *)
Definition required : list string :=
  ["title"; "description"; "price"; "thumbnail"; "code"; "stock"].

(** Every required field of the payload passes the test [!field]. *)
Definition complete (o : object) : bool :=
  forallb (fun f => ToBoolean (prop o f)) required.

(** No product of the list has the code of the payload. *)
Definition fresh_code (l : list object) (o : object) : bool :=
  negb (existsb (fun product => StrictEquals (prop product "code") (prop o "code")) l).

(** The numeric identifiers of a stored collection, when all are numbers. *)
Definition numeric_id (p : document) : option Z :=
  match p !! "id" with
  | Some (JNum n) => Some n
  | _ => None
  end.

Definition numeric_ids (d : list document) : option (list Z) :=
  mapM numeric_id d.


(** The identifier [#getNewID] computes for a readable file. *)
Definition nextId (d : list document) : value :=
  match last (JSON_parse d) with
  | None => VNum 1
  | Some lastProductAdd => plus (prop lastProductAdd "id") (VNum 1)
  end.

(** The object [addProduct] pushes for a payload. *)
Definition pushed (id : value) (o : object) : object :=
  newRecord id (prop o "title") (prop o "description") (prop o "price")
    (prop o "thumbnail") (prop o "code") (prop o "stock").

(** The list [updateProduct] builds with [map]. *)
Definition updated (productID : value) (o : object) (l : list object)
  : list object :=
  map (fun product =>
         if StrictEquals (prop product "id") productID
         then spreadUpdate product (prop o "title") (prop o "description")
                (prop o "price") (prop o "thumbnail") (prop o "code")
                (prop o "stock")
         else product) l.

(** The list [deleteProduct] builds with [filter]. *)
Definition remaining (productID : value) (l : list object) : list object :=
  List.filter (fun product => negb (LooseEquals (prop product "id") productID)) l.

(** The ids of a list of products, in order: as read from the objects in
    memory, and as stored in the file (where a record may have none). *)
Definition ids (l : list object) : list value :=
  (fun p : object => prop p "id") <$> l.

Definition stored_ids (d : list document) : list (option json) :=
  (fun x : document => x !! "id") <$> d.

(** What a stored line item becomes when it is read (populated) and
    written back unchanged: a reference to a product that is no longer in
    the catalog comes back as [null]. *)
Definition written_back (st : db) (li : lineItem) : lineItem :=
  {| product_ref := castProduct (product (populate st li));
     stored_quantity := stored_quantity li |}.

(** The line item Mongoose stores for the pushed [{ product: product._id }]. *)
Definition inserted (productId : string) : lineItem :=
  {| product_ref := Some productId; stored_quantity := Some defaultQuantity |}.

(** A call of the product manager, and the file it leaves. *)
Inductive call : Type :=
| GetProducts
| GetProductById (productID : value)
| AddProduct (newProduct : argument)
| DeleteProduct (productID : value)
| UpdateProduct (productID : value) (productToChanged : argument).

Definition after (c : call) (st : fs) : fs :=
  match c with
  | GetProducts => (getProducts st).2
  | GetProductById productID => (getProductById productID st).2
  | AddProduct newProduct => (addProduct newProduct st).2
  | DeleteProduct productID => (deleteProduct productID st).2
  | UpdateProduct productID productToChanged =>
      (updateProduct productID productToChanged st).2
  end.

Definition after_all (cs : list call) (st : fs) : fs :=
  foldl (fun s c => after c s) st cs.



(** The codes of a stored collection, in order. *)
Definition stored_codes (d : list document) : list (option json) :=
  (fun x : document => x !! "code") <$> d.

(** A line item whose reference names a product of the catalog. *)
Definition resolved (st : db) (li : lineItem) : Prop :=
  ∃ pid, product_ref li = Some pid ∧ is_Some (catalog st !! pid).


(** The database with the line items of one cart replaced. *)
Definition with_cart (st : db) (cartId : string) (lis : list lineItem) : db :=
  {| carts := <[cartId := lis]> (carts st);
     catalog := catalog st;
     connected := connected st |}.





(** Membership in [required], for a field named in a proof. *)
Ltac in_required := unfold required; apply list_elem_of_In; simpl; tauto.

(** ** JSON round trip *)

Lemma stringify_parse_value (j : json) :
  JSON_stringify_value (JSON_parse_value j) = Some j.
Proof. by destruct j. Qed.

Lemma stringify_parse_document (d : document) :
  omap JSON_stringify_value (JSON_parse_value <$> d) = d.
Proof.
  apply map_eq; intros k.
  rewrite lookup_omap, lookup_fmap.
  destruct (d !! k) as [j|]; simpl; [apply stringify_parse_value | done].
Qed.

Lemma JSON_stringify_parse (d : list document) :
  JSON_stringify (JSON_parse d) = d.
Proof.
  unfold JSON_stringify, JSON_parse.
  induction d as [|x d IH]; simpl; [done|].
  by rewrite stringify_parse_document, IH.
Qed.


(** Reading a property of a parsed document. *)
Lemma prop_parse (d : document) (k : string) :
  prop (JSON_parse_value <$> d) k = default VUndefined (JSON_parse_value <$> d !! k).
Proof. unfold prop. by rewrite lookup_fmap. Qed.


(** ** Running the file operations *)

Lemma getProducts_eq (st : fs) :
  getProducts st = (Returns (JSON_parse <$> contents st), st).
Proof.
  unfold getProducts, try_catch, bind, readFile, ret.
  by destruct (contents st).
Qed.

Lemma getNewID_eq (st : fs) (d : list document) :
  contents st = Some d →
  getNewID st = (Returns (nextId d), st).
Proof.
  intros Hd. unfold getNewID, nextId, try_catch, bind.
  rewrite getProducts_eq, Hd. simpl.
  destruct (JSON_parse d) as [|x l] eqn:E using rev_ind; [done|].
  rewrite last_snoc, length_app. simpl.
  replace (length l + 1 =? 0)%nat with false by (symmetry; apply Nat.eqb_neq; lia).
  replace (length l + 1 - 1)%nat with (length l) by lia.
  by rewrite list_lookup_middle.
Qed.

Lemma ToBoolean_StrictEquals (v : value) :
  ToBoolean v = true → StrictEquals v v = true.
Proof.
  destruct v as [| |b|n| |s]; simpl; try done.
  - by destruct b.
  - intros _. apply Z.eqb_refl.
  - intros _. apply String.eqb_refl.
Qed.

Lemma validation_complete (o : object) :
  negb (ToBoolean (prop o "title")) || negb (ToBoolean (prop o "description"))
  || negb (ToBoolean (prop o "price")) || negb (ToBoolean (prop o "thumbnail"))
  || negb (ToBoolean (prop o "code")) || negb (ToBoolean (prop o "stock"))
  = negb (complete o).
Proof.
  unfold complete, required. simpl.
  repeat (destruct (ToBoolean _); simpl; try done).
Qed.

(** [addProduct] on a readable file, branch by branch. *)
Lemma addProduct_eq (st : fs) (d : list document) (o : object) :
  contents st = Some d →
  addProduct (Obj o) st =
    if negb (complete o) then (Returns None, st)
    else if negb (fresh_code (JSON_parse d) o) then (Returns None, st)
    else
      let l' := (JSON_parse d ++ [pushed (nextId d) o])%list in
      if writable st
      then (Returns (index l' (minus (nextId d) (VNum 1))),
            {| contents := Some (JSON_stringify l'); writable := true |})
      else (Returns None, st).
Proof.
  intros Hd. unfold addProduct, try_catch, bind at 1. simpl.
  rewrite validation_complete.
  destruct (complete o); simpl; [|done].
  unfold bind at 1. rewrite getProducts_eq, Hd. simpl.
  unfold bind at 1. simpl. unfold fresh_code.
  destruct (existsb _ _); simpl; [done|].
  unfold bind at 1. rewrite (getNewID_eq st d Hd).
  unfold bind, writeFile, ret, pushed.
  by destruct (writable st).
Qed.

(** [addProduct] stops at the validation whatever the file holds. *)
Lemma addProduct_incomplete (st : fs) (o : object) :
  complete o = false → addProduct (Obj o) st = (Returns None, st).
Proof.
  intros Hc. unfold addProduct, try_catch, bind at 1. simpl.
  by rewrite validation_complete, Hc.
Qed.

Lemma complete_field (o : object) (f : string) :
  f ∈ required → ToBoolean (prop o f) = false → complete o = false.
Proof.
  intros Hf Hv. unfold complete.
  apply not_true_is_false. intros Hall.
  rewrite forallb_forall in Hall.
  apply list_elem_of_In in Hf. specialize (Hall f Hf). congruence.
Qed.

Lemma complete_fields (o : object) (f : string) :
  complete o = true → f ∈ required → ToBoolean (prop o f) = true.
Proof.
  unfold complete. rewrite forallb_forall.
  intros Hall Hf. apply Hall. by apply list_elem_of_In.
Qed.







(** ** Properties of ProductManager *)


(** C3.  When some stored product has the code of the payload,
    [addProduct] returns [undefined] and the file is what it was. *)
Theorem addProduct_rejects_duplicate_code
    (st : fs) (d : list document) (o p : object) :
  contents st = Some d → p ∈ JSON_parse d → prop p "code" = prop o "code" →
  addProduct (Obj o) st = (Returns None, st).
Proof.
  intros Hd Hp Hcode.
  rewrite (addProduct_eq st d o Hd).
  destruct (complete o) eqn:Hc; simpl; [|done].
  assert (fresh_code (JSON_parse d) o = false) as ->; [|done].
  unfold fresh_code. apply negb_false_iff, existsb_exists.
  exists p. split; [by apply list_elem_of_In|].
  rewrite Hcode. apply ToBoolean_StrictEquals.
  apply (complete_fields o "code" Hc). in_required.
Qed.

(** A payload in which a required field is missing, [null] or the empty
    string is rejected, and the file is what it was. *)
Lemma addProduct_rejects_missing_or_empty (st : fs) (o : object) (f : string) :
  f ∈ required →
  prop o f = VUndefined ∨ prop o f = VNull ∨ prop o f = VStr EmptyString →
  addProduct (Obj o) st = (Returns None, st).
Proof.
  intros Hf Hv. apply addProduct_incomplete, (complete_field o f Hf).
  by destruct Hv as [-> | [-> | ->]].
Qed.

(** C6, where the code departs from it.  A payload whose stock is the
    number 0 has its stock field present, and [addProduct] rejects it at
    the validation: [!stock] is true of 0.  The same holds of the price. *)
Theorem addProduct_rejects_zero_stock (st : fs) (o : object) :
  prop (<["stock" := VNum 0]> o) "stock" = VNum 0 ∧
  addProduct (Obj (<["stock" := VNum 0]> o)) st = (Returns None, st).
Proof.
  assert (H0 : prop (<["stock" := VNum 0]> o) "stock" = VNum 0).
  { unfold prop. by rewrite lookup_insert_eq. }
  split; [done|].
  apply addProduct_incomplete, (complete_field _ "stock").
  - in_required.
  - by rewrite H0.
Qed.

(** [deleteProduct] on a readable file. *)
Lemma deleteProduct_eq (st : fs) (d : list document) (productID : value) :
  contents st = Some d →
  deleteProduct productID st =
    if writable st
    then (Returns (remaining productID (JSON_parse d)),
          {| contents := Some (JSON_stringify (remaining productID (JSON_parse d)));
             writable := true |})
    else (Throws IOError, st).
Proof.
  intros Hd. unfold deleteProduct, bind at 1.
  rewrite getProducts_eq, Hd. simpl.
  unfold bind, writeFile, ret, remaining. simpl.
  by destruct (writable st).
Qed.

(** [updateProduct] on a readable file. *)
Lemma updateProduct_eq (st : fs) (d : list document) (productID : value)
    (o : object) :
  contents st = Some d →
  updateProduct productID (Obj o) st =
    if writable st
    then (Returns (Some (updated productID o (JSON_parse d))),
          {| contents := Some (JSON_stringify (updated productID o (JSON_parse d)));
             writable := true |})
    else (Returns None, st).
Proof.
  intros Hd. unfold updateProduct, try_catch, bind at 1. simpl.
  unfold bind at 1. rewrite getProducts_eq, Hd. simpl.
  unfold bind, writeFile, ret, updated. simpl.
  by destruct (writable st).
Qed.

(** [updateProduct] when nothing can be read, or nothing was passed. *)
Lemma updateProduct_unreadable (st : fs) (productID : value) (a : argument) :
  contents st = None → updateProduct productID a st = (Returns None, st).
Proof.
  intros Hd. unfold updateProduct, try_catch, bind at 1.
  destruct a as [|o]; simpl; [done|].
  unfold bind at 1. by rewrite getProducts_eq, Hd.
Qed.

Lemma updateProduct_nullish (st : fs) (productID : value) :
  updateProduct productID Nullish st = (Returns None, st).
Proof. done. Qed.

Lemma filter_all {A} (f : A → bool) (l : list A) :
  (∀ x, x ∈ l → f x = true) → List.filter f l = l.
Proof.
  induction l as [|x l IH]; intros Hall; simpl; [done|].
  rewrite (Hall x) by apply list_elem_of_here.
  f_equal. apply IH. intros y Hy. apply Hall. by apply list_elem_of_further.
Qed.

(** The spread keeps every property the literal does not name. *)
Lemma spreadUpdate_other (product : object) (t de pr th c s : value) (k : string) :
  k ∉ required →
  spreadUpdate product t de pr th c s !! k = product !! k.
Proof.
  intros Hk. unfold spreadUpdate.
  repeat (rewrite lookup_insert_ne; [|intros <-; apply Hk; in_required]).
  done.
Qed.

(** The six properties the literal names take the values given. *)
Lemma spreadUpdate_required (product o : object) (k : string) :
  k ∈ required →
  spreadUpdate product (prop o "title") (prop o "description") (prop o "price")
    (prop o "thumbnail") (prop o "code") (prop o "stock") !! k
  = Some (prop o k).
Proof.
  intros Hk. unfold spreadUpdate, required in *.
  apply list_elem_of_In in Hk. simpl in Hk.
  destruct Hk as [<-|[<-|[<-|[<-|[<-|[<-|[]]]]]]];
    repeat (rewrite lookup_insert_ne by done); by rewrite lookup_insert_eq.
Qed.

Lemma id_not_required : "id" ∉ required.
Proof. unfold required. intros H. apply list_elem_of_In in H. simpl in H.
  repeat (destruct H as [H|H]; [discriminate|]). done.
Qed.

(** C7.  When no stored product's id compares equal ([==], the test
    [deleteProduct] filters with) to the identifier, the file holds after
    [deleteProduct] the records it held before, in the same order; on a
    writable file the call writes back the collection it read and
    returns it. *)
Theorem deleteProduct_absent_id_unchanged
    (st : fs) (d : list document) (productID : value) :
  contents st = Some d →
  (∀ p, p ∈ JSON_parse d → LooseEquals (prop p "id") productID = false) →
  contents (deleteProduct productID st).2 = Some d ∧
  (writable st = true →
   deleteProduct productID st = (Returns (JSON_parse d), st)).
Proof.
  intros Hd Hno.
  rewrite (deleteProduct_eq st d productID Hd).
  assert (remaining productID (JSON_parse d) = JSON_parse d) as ->.
  { apply filter_all. intros p Hp. by rewrite (Hno p Hp). }
  rewrite JSON_stringify_parse.
  destruct st as [c [|]]; simpl in *; by subst.
Qed.

(** Each mutation ends with one [writeFile] of the whole list it built. *)
Lemma mutations_write_whole_list (st : fs) (d : list document)
    (productID : value) (o : object) :
  contents st = Some d → writable st = true →
  (deleteProduct productID st).2
  = (writeFile (JSON_stringify (remaining productID (JSON_parse d))) st).2 ∧
  (updateProduct productID (Obj o) st).2
  = (writeFile (JSON_stringify (updated productID o (JSON_parse d))) st).2 ∧
  (complete o = true → fresh_code (JSON_parse d) o = true →
   (addProduct (Obj o) st).2
   = (writeFile (JSON_stringify (JSON_parse d ++ [pushed (nextId d) o])) st).2).
Proof.
  intros Hd Hw. unfold writeFile.
  rewrite (deleteProduct_eq st d productID Hd),
    (updateProduct_eq st d productID o Hd), (addProduct_eq st d o Hd), Hw.
  split; [done|]. split; [done|].
  by intros -> ->.
Qed.


(** One step of the [map] of [updateProduct] leaves the id alone. *)
Lemma updated_id (productID : value) (o : object) (l : list object) :
  (fun p : object => p !! "id") <$> updated productID o l
  = (fun p : object => p !! "id") <$> l.
Proof.
  unfold updated. change (map ?f l) with (f <$> l).
  induction l as [|p l IH]; csimpl; [done|].
  f_equal; [|exact IH].
  destruct (StrictEquals (prop p "id") productID); [|done].
  apply spreadUpdate_other, id_not_required.
Qed.

Lemma stringify_id (l : list object) :
  stored_ids (JSON_stringify l)
  = (fun i : option value => i ≫= JSON_stringify_value)
      <$> ((fun p : object => p !! "id") <$> l).
Proof.
  unfold stored_ids, JSON_stringify. change (map ?f l) with (f <$> l).
  induction l as [|p l IH]; csimpl; [done|].
  f_equal; [apply lookup_omap|exact IH].
Qed.

Lemma ids_lookup (l : list object) :
  ids l = default VUndefined <$> ((fun p : object => p !! "id") <$> l).
Proof. by rewrite <- list_fmap_compose. Qed.

(** C9.  Whatever the file, the identifier and the payload, the ids
    stored after [updateProduct] are, position by position, the ids
    stored before, and so are the ids of the list it returns. *)
Theorem updateProduct_keeps_ids (productID : value) (a : argument) (st : fs) :
  stored_ids <$> contents (updateProduct productID a st).2
  = stored_ids <$> contents st ∧
  ∀ l, (updateProduct productID a st).1 = Returns (Some l) →
       ∃ d, contents st = Some d ∧ ids l = ids (JSON_parse d).
Proof.
  destruct a as [|o]; [by rewrite updateProduct_nullish|].
  destruct (contents st) as [d|] eqn:Hd.
  2: { rewrite (updateProduct_unreadable st productID (Obj o) Hd). simpl.
       rewrite Hd. by split. }
  rewrite (updateProduct_eq st d productID o Hd).
  destruct (writable st); simpl.
  2: { rewrite Hd. split; [done|]. intros l [=]. }
  assert (Hids : (fun p : object => p !! "id") <$> updated productID o (JSON_parse d)
                 = (fun p : object => p !! "id") <$> JSON_parse d)
    by apply updated_id.
  split.
  - f_equal. rewrite stringify_id, Hids, <- stringify_id.
    by rewrite JSON_stringify_parse.
  - intros l [= <-]. exists d. split; [done|].
    by rewrite !ids_lookup, Hids.
Qed.

(** C2 (as amended).  In the record whose id is the one passed, the
    properties other than title, description, price, thumbnail, code and
    stock (the id among them) are those of the stored record, in the list
    returned and in the file alike; each of those six holds what the
    payload holds for it, [undefined] when the payload has none, and such
    a property is absent from the file. *)
Theorem updateProduct_overrides_required_keeps_rest
    (st : fs) (d : list document) (productID : value) (o : object)
    (i : nat) (x : document) :
  contents st = Some d → writable st = true →
  d !! i = Some x →
  StrictEquals (prop (JSON_parse_value <$> x) "id") productID = true →
  ∃ (l : list object) (p' : object) (x' : document),
    updateProduct productID (Obj o) st
    = (Returns (Some l), {| contents := Some (JSON_stringify l); writable := true |}) ∧
    l !! i = Some p' ∧ JSON_stringify l !! i = Some x' ∧
    (∀ k, k ∉ required → p' !! k = JSON_parse_value <$> x !! k) ∧
    (∀ k, k ∈ required → p' !! k = Some (prop o k)) ∧
    (∀ k, k ∉ required → x' !! k = x !! k) ∧
    (∀ k, k ∈ required → x' !! k = JSON_stringify_value (prop o k)).
Proof.
  intros Hd Hw Hx Hid.
  rewrite (updateProduct_eq st d productID o Hd), Hw.
  set (p := JSON_parse_value <$> x) in *.
  set (p' := spreadUpdate p (prop o "title") (prop o "description")
               (prop o "price") (prop o "thumbnail") (prop o "code")
               (prop o "stock")).
  assert (Hl : updated productID o (JSON_parse d) !! i = Some p').
  { unfold updated, JSON_parse.
    change (map ?f ?l) with (f <$> l).
    rewrite !list_lookup_fmap, Hx. simpl. fold p. by rewrite Hid. }
  exists (updated productID o (JSON_parse d)), p', (omap JSON_stringify_value p').
  split; [done|]. split; [done|]. split.
  { unfold JSON_stringify. change (map ?f ?l) with (f <$> l).
    by rewrite list_lookup_fmap, Hl. }
  split; [|split; [|split]].
  - intros k Hk. unfold p'. rewrite spreadUpdate_other by done.
    unfold p. by rewrite lookup_fmap.
  - intros k Hk. by apply spreadUpdate_required.
  - intros k Hk. rewrite lookup_omap. unfold p'.
    rewrite spreadUpdate_other by done.
    unfold p. rewrite lookup_fmap.
    destruct (x !! k) as [j|]; simpl; [apply stringify_parse_value|done].
  - intros k Hk. rewrite lookup_omap. unfold p'.
    by rewrite spreadUpdate_required.
Qed.

(** Wrapped in [try] with a handler that returns, a call never throws. *)
Lemma try_catch_returns {S A} (body : M S A) (h : exn → A) (st : S) :
  ∃ a st', try_catch body (fun e => ret (h e)) st = (Returns a, st').
Proof.
  unfold try_catch, ret. destruct (body st) as [[a|e] st']; eauto.
Qed.

Lemma addProduct_never_throws (a : argument) (st : fs) :
  ∃ r st', addProduct a st = (Returns r, st').
Proof. apply (try_catch_returns _ (fun _ => None)). Qed.

Lemma updateProduct_never_throws (productID : value) (a : argument) (st : fs) :
  ∃ r st', updateProduct productID a st = (Returns r, st').
Proof. apply (try_catch_returns _ (fun _ => None)). Qed.

Lemma cart_operations_never_throw (st : db) (cartId productId : string)
    (newQuantity : argument) :
  (∃ r st', getCartById cartId st = (Returns r, st')) ∧
  (∃ r st', addProductToCart cartId productId st = (Returns r, st')) ∧
  (∃ r st', deleteOneProductfromCart cartId productId st = (Returns r, st')) ∧
  (∃ r st', updateQuantityOfProduct cartId productId newQuantity st
            = (Returns r, st')) ∧
  (∃ r st', deleteAllProductsfromCart cartId st = (Returns r, st')).
Proof.
  repeat split; apply (try_catch_returns _ (fun _ => Undefined)).
Qed.

(** C5, where the code departs from it.  On a file that cannot be read
    [getProducts] returns [undefined]; [deleteProduct], which has no
    [try], then throws a TypeError to its caller, and [getProductById]
    throws a ReferenceError out of its own catch block. *)
Theorem deleteProduct_getProductById_throw (productID : value) (w : bool) :
  let st := {| contents := None; writable := w |} in
  deleteProduct productID st = (Throws TypeError, st) ∧
  getProductById productID st = (Throws ReferenceError, st).
Proof. done. Qed.

(** ** Running the cart operations *)

Lemma getCartById_eq (st : db) (cartId : string) (lis : list lineItem) :
  connected st = true → carts st !! cartId = Some lis →
  getCartById cartId st
  = (Returns (Value {| products := map (populate st) lis |}), st).
Proof.
  intros Hc Hl.
  unfold getCartById, try_catch, findOne_populate_lean, exec.
  by rewrite Hc, Hl.
Qed.

Lemma getCartById_state (st : db) (cartId : string) :
  (getCartById cartId st).2 = st.
Proof.
  unfold getCartById, try_catch, findOne_populate_lean, exec, ret.
  by destruct (connected st).
Qed.

Lemma productManager_getProductById_eq (st : db) (productId : string) (o : object) :
  connected st = true → catalog st !! productId = Some o →
  productManager_getProductById productId st
  = (Returns (Some {| _id := productId; fields := o |}), st).
Proof.
  intros Hc Ho. unfold productManager_getProductById, try_catch, exec.
  by rewrite Hc, Ho.
Qed.

Lemma productManager_getProductById_state (st : db) (productId : string) :
  (productManager_getProductById productId st).2 = st.
Proof.
  unfold productManager_getProductById, try_catch, exec, ret.
  by destruct (connected st).
Qed.

(** A populated reference prints as an object or as [null], never as an
    identifier. *)
Lemma StringOf_populate (st : db) (li : lineItem) :
  StringOf (product (populate st li)) = "[object Object]" ∨
  StringOf (product (populate st li)) = "null".
Proof.
  unfold populate. simpl.
  destruct (product_ref li) as [pid|]; [|by right].
  destruct (catalog st !! pid); [by left|by right].
Qed.

Lemma findItem_populate (st : db) (productId : string) (lis : list lineItem) :
  productId ≠ "[object Object]" → productId ≠ "null" →
  findItem productId (map (populate st) lis) = None.
Proof.
  intros Hobj Hnull. unfold findItem. apply list_find_None.
  apply Forall_forall. intros it Hit.
  apply list_elem_of_In, in_map_iff in Hit as (li & <- & _).
  destruct (StringOf_populate st li) as [-> | ->]; congruence.
Qed.

Lemma castItems_populate (st st' : db) (lis : list lineItem) (extra : list item)
    (stored : list lineItem) :
  castItems extra st' = (Returns stored, st') →
  castItems (map (populate st) lis ++ extra) st'
  = (Returns (map (written_back st) lis ++ stored)%list, st').
Proof.
  intros Hextra.
  induction lis as [|li lis IH]; [done|].
  cbn [map app castItems]. unfold bind at 1.
  assert (castQuantity (quantity (populate st li)) st'
          = (Returns (stored_quantity li), st')) as ->.
  { unfold populate. simpl. by destruct (stored_quantity li). }
  unfold bind at 1. by rewrite IH.
Qed.

Lemma written_back_resolved (st : db) (li : lineItem) (pid : string) :
  product_ref li = Some pid → is_Some (catalog st !! pid) →
  written_back st li = li.
Proof.
  intros Hp [o Ho]. destruct li as [r q]. simpl in *. subst.
  unfold written_back, populate. simpl. by rewrite Ho.
Qed.

(** [addProductToCart] for a product of the catalog and a cart of the
    database: the search among the populated line items finds nothing,
    so the product is pushed, whatever the cart holds. *)
Lemma addProductToCart_eq (st : db) (cartId productId : string)
    (lis : list lineItem) (o : object) :
  connected st = true → carts st !! cartId = Some lis →
  catalog st !! productId = Some o →
  productId ≠ "[object Object]" → productId ≠ "null" →
  addProductToCart cartId productId st
  = (Returns (Value (map (written_back st) lis ++ [inserted productId])%list),
     {| carts := <[cartId := (map (written_back st) lis ++ [inserted productId])%list]>
                   (carts st);
        catalog := catalog st;
        connected := connected st |}).
Proof.
  intros Hc Hl Ho Hobj Hnull.
  unfold addProductToCart, try_catch, bind at 1.
  rewrite (getCartById_eq st cartId lis Hc Hl).
  unfold bind at 1.
  rewrite (productManager_getProductById_eq st productId o Hc Ho).
  unfold bind at 1. simpl.
  rewrite (findItem_populate st productId lis Hobj Hnull).
  unfold findOneAndUpdate, bind.
  rewrite (castItems_populate st st lis _ [inserted productId]) by done.
  by rewrite Hc, Hl.
Qed.

(** ** Properties of CartManagerMongo *)

(** C4, where the code departs from it.  The cart is read with its line
    items populated, so [String(item.product)] is never the product id
    and the search finds no line item (the sibling
    [deleteOneProductfromCart] compares [item.product._id]).  For a cart
    that already has a line item for the product, with quantity [q], the
    call leaves every stored quantity as it was and appends a second line
    item for the same product, at the default quantity 1. *)
Theorem addProductToCart_duplicates_line_item (st : db)
    (cartId productId : string) (lis : list lineItem) (o : object) (q : Z) :
  connected st = true → carts st !! cartId = Some lis →
  catalog st !! productId = Some o →
  productId ≠ "[object Object]" → productId ≠ "null" →
  {| product_ref := Some productId; stored_quantity := Some q |} ∈ lis →
  ∃ lis',
    carts (addProductToCart cartId productId st).2 !! cartId
    = Some (lis' ++ [inserted productId])%list ∧
    stored_quantity <$> lis' = stored_quantity <$> lis ∧
    {| product_ref := Some productId; stored_quantity := Some q |} ∈ lis'.
Proof.
  intros Hc Hl Ho Hobj Hnull Hin.
  rewrite (addProductToCart_eq st cartId productId lis o Hc Hl Ho Hobj Hnull).
  exists (map (written_back st) lis). simpl.
  split; [by rewrite lookup_insert_eq|]. split.
  - change (map ?f lis) with (f <$> lis).
    by rewrite <- list_fmap_compose.
  - apply list_elem_of_In, in_map_iff.
    exists {| product_ref := Some productId; stored_quantity := Some q |}.
    split; [|by apply list_elem_of_In].
    by apply (written_back_resolved st _ productId).
Qed.

(** The half of C4 the code keeps: a product that has no line item in the
    cart is inserted at quantity 1, after the line items already there. *)
Lemma addProductToCart_inserts_at_quantity_1 (st : db)
    (cartId productId : string) (lis : list lineItem) (o : object) :
  connected st = true → carts st !! cartId = Some lis →
  catalog st !! productId = Some o →
  productId ≠ "[object Object]" → productId ≠ "null" →
  carts (addProductToCart cartId productId st).2 !! cartId
  = Some (map (written_back st) lis
          ++ [{| product_ref := Some productId; stored_quantity := Some 1 |}])%list.
Proof.
  intros Hc Hl Ho Hobj Hnull.
  rewrite (addProductToCart_eq st cartId productId lis o Hc Hl Ho Hobj Hnull).
  simpl. by rewrite lookup_insert_eq.
Qed.

(** C10, where the code departs from it.  For a product of the catalog
    and a cart of the database, whatever line items the cart has and
    whatever quantity is passed, the search among the populated line
    items finds nothing: the call takes the branch for a product that is
    not in the cart and returns [null], not [undefined]; the test of the
    quantity is not reached.  The database is left as it was. *)
Theorem updateQuantityOfProduct_returns_null (st : db)
    (cartId productId : string) (lis : list lineItem) (o : object)
    (newQuantity : argument) :
  connected st = true → carts st !! cartId = Some lis →
  catalog st !! productId = Some o →
  productId ≠ "[object Object]" → productId ≠ "null" →
  updateQuantityOfProduct cartId productId newQuantity st = (Returns Null, st).
Proof.
  intros Hc Hl Ho Hobj Hnull.
  unfold updateQuantityOfProduct, try_catch, bind at 1.
  rewrite (getCartById_eq st cartId lis Hc Hl).
  unfold bind at 1.
  rewrite (productManager_getProductById_eq st productId o Hc Ho).
  unfold bind at 1. simpl.
  by rewrite (findItem_populate st productId lis Hobj Hnull).
Qed.

(** What holds of C10 on every input: with a quantity that [isNaN]
    rejects no update is issued; the call returns [undefined] or [null]
    and the database is left as it was. *)
Lemma updateQuantityOfProduct_NaN_no_update (st : db)
    (cartId productId : string) (body : object) :
  isNaN (prop body "quantity") = true →
  ∃ r, updateQuantityOfProduct cartId productId (Obj body) st = (Returns r, st) ∧
       (r = Undefined ∨ r = Null).
Proof.
  intros Hnan.
  unfold updateQuantityOfProduct, try_catch, bind at 1.
  pose proof (getCartById_state st cartId) as Hst.
  destruct (getCartById cartId st) as [[cart|e] st1]; simpl in Hst; subst st1.
  2: { exists Undefined. by split; [|left]. }
  unfold bind at 1.
  pose proof (productManager_getProductById_state st productId) as Hst.
  destruct (productManager_getProductById productId st) as [[found|e] st1];
    simpl in Hst; subst st1.
  2: { exists Undefined. by split; [|left]. }
  destruct found as [product0|]; [|exists Undefined; by split; [|left]].
  unfold bind at 1.
  destruct cart as [| |c]; simpl;
    [exists Undefined; by split; [|left] | exists Undefined; by split; [|left] |].
  destruct (findItem productId (products c)) as [[i productExistInCart]|];
    [|exists Null; by split; [|right]].
  unfold bind, destructure, ret. rewrite Hnan.
  exists Undefined. by split; [|left].
Qed.

(** ** Further properties of ProductManager *)

Lemma StrictEquals_LooseEquals (a b : value) :
  StrictEquals a b = true → LooseEquals a b = true.
Proof.
  destruct a as [| |x|x| |x], b as [| |y|y| |y]; simpl; try done.
  by destruct x, y.
Qed.

Lemma find_first {A} (f : A → bool) (l : list A) :
  match List.find f l with
  | Some x =>
      ∃ i, l !! i = Some x ∧ f x = true ∧
           ∀ j y, (j < i)%nat → l !! j = Some y → f y = false
  | None => ∀ y, y ∈ l → f y = false
  end.
Proof.
  induction l as [|x l IH]; simpl.
  - intros y Hy. by apply elem_of_nil in Hy.
  - destruct (f x) eqn:Hx.
    + exists 0%nat. repeat split; [done|]. intros j y Hj. lia.
    + destruct (List.find f l) as [z|].
      * destruct IH as (i & Hi & Hz & Hbefore).
        exists (S i). repeat split; [done..|].
        intros [|j] y Hj Hy; simpl in Hy; [congruence|].
        apply (Hbefore j); [lia|done].
      * intros y Hy. apply elem_of_cons in Hy as [->|Hy]; [done|by apply IH].
Qed.

Lemma find_none_all {A} (f : A → bool) (l : list A) :
  (∀ y, y ∈ l → f y = false) → List.find f l = None.
Proof.
  induction l as [|x l IH]; intros Hall; simpl; [done|].
  rewrite (Hall x) by apply list_elem_of_here.
  apply IH. intros y Hy. apply Hall. by apply list_elem_of_further.
Qed.


Lemma elem_of_JSON_parse (p : object) (d : list document) :
  p ∈ JSON_parse d ↔ ∃ x, x ∈ d ∧ p = JSON_parse_value <$> x.
Proof.
  unfold JSON_parse. rewrite list_elem_of_In, in_map_iff.
  split; intros (x & H1 & H2).
  - exists x. by rewrite list_elem_of_In.
  - exists x. by rewrite <- list_elem_of_In.
Qed.

Lemma prop_id_numeric (x : document) (a : Z) :
  numeric_id x = Some a → prop (JSON_parse_value <$> x) "id" = VNum a.
Proof.
  unfold numeric_id. intros Hx. rewrite prop_parse.
  destruct (x !! "id") as [[]|]; simpl; congruence.
Qed.

Lemma numeric_ids_elem (d : list document) (zs : list Z) (x : document) :
  numeric_ids d = Some zs → x ∈ d → ∃ a, numeric_id x = Some a.
Proof.
  intros Hids Hx. apply mapM_Some in Hids.
  apply list_elem_of_lookup in Hx as [i Hi].
  destruct (Forall2_lookup_l _ _ _ _ _ Hids Hi) as (a & _ & Ha). eauto.
Qed.

(** [getProductById] on a readable file. *)
Lemma getProductById_eq (st : fs) (d : list document) (productID : value) :
  contents st = Some d →
  getProductById productID st
  = (Returns (List.find (fun prod => StrictEquals (prop prod "id") productID)
                (JSON_parse d)), st).
Proof.
  intros Hd. unfold getProductById, try_catch, bind at 1.
  rewrite getProducts_eq, Hd. simpl. unfold bind. simpl.
  by destruct (List.find _ _).
Qed.

(** Every call on a file that cannot be read leaves the file alone. *)
Lemma addProduct_unreadable (st : fs) (a : argument) :
  contents st = None → addProduct a st = (Returns None, st).
Proof.
  intros Hd. destruct a as [|o]; [done|].
  unfold addProduct, try_catch, bind at 1. simpl.
  destruct (_ || _); [done|].
  unfold bind at 1. by rewrite getProducts_eq, Hd.
Qed.

Lemma after_unreadable (c : call) (st : fs) :
  contents st = None → after c st = st.
Proof.
  intros Hd. destruct c as [|productID|a|productID|productID a]; simpl.
  - by rewrite getProducts_eq.
  - unfold getProductById, try_catch, bind at 1.
    by rewrite getProducts_eq, Hd.
  - by rewrite (addProduct_unreadable st a Hd).
  - unfold deleteProduct, bind at 1. by rewrite getProducts_eq, Hd.
  - by rewrite (updateProduct_unreadable st productID a Hd).
Qed.

(** X1.  On a readable file [getProductById] leaves the file as it is and
    returns the first stored product whose id is strictly equal ([===])
    to the one passed: no product before it has that id; it returns
    [undefined] exactly when no stored product has it. *)
Theorem getProductById_first_match
    (st : fs) (d : list document) (productID : value) :
  contents st = Some d →
  ∃ r, getProductById productID st = (Returns r, st) ∧
       match r with
       | Some p =>
           ∃ i, JSON_parse d !! i = Some p ∧
                StrictEquals (prop p "id") productID = true ∧
                ∀ j q, (j < i)%nat → JSON_parse d !! j = Some q →
                       StrictEquals (prop q "id") productID = false
       | None =>
           ∀ q, q ∈ JSON_parse d → StrictEquals (prop q "id") productID = false
       end.
Proof.
  intros Hd. rewrite (getProductById_eq st d productID Hd).
  eexists. split; [done|].
  apply (find_first (fun prod => StrictEquals (prop prod "id") productID)).
Qed.

(** X2.  The comparison of [getProductById] does not convert: in a file
    whose ids are all numbers, an identifier passed as a string (as a
    route parameter is) finds no product, whatever the string. *)
Theorem getProductById_string_never_found
    (st : fs) (d : list document) (zs : list Z) (s : string) :
  contents st = Some d → numeric_ids d = Some zs →
  getProductById (VStr s) st = (Returns None, st).
Proof.
  intros Hd Hids. rewrite (getProductById_eq st d (VStr s) Hd).
  rewrite find_none_all; [done|].
  intros p Hp. apply elem_of_JSON_parse in Hp as (x & Hx & ->).
  destruct (numeric_ids_elem d zs x Hids Hx) as [a Ha].
  by rewrite (prop_id_numeric x a Ha).
Qed.

(** X3.  Nothing creates the product file.  The constructor writes only
    for an empty path, where the write throws; and on a file that cannot
    be read every call, and every sequence of calls, leaves the file
    state exactly as it was. *)
Theorem unreadable_file_stays_unreadable
    (path : string) (cs : list call) (st : fs) :
  (constructor path st).2 = st ∧
  (contents st = None → after_all cs st = st).
Proof.
  split.
  - unfold constructor, writeFileSync. simpl.
    by destruct (String.eqb path EmptyString).
  - intros Hd. unfold after_all.
    induction cs as [|c cs IH]; simpl; [done|].
    by rewrite (after_unreadable c st Hd).
Qed.










Lemma JSON_parse_filter (f : object → bool) (d : list document) :
  List.filter f (JSON_parse d)
  = JSON_parse (List.filter (fun x : document => f (JSON_parse_value <$> x)) d).
Proof.
  unfold JSON_parse. induction d as [|x d IH]; simpl; [done|].
  destruct (f (JSON_parse_value <$> x)); simpl; by rewrite IH.
Qed.












Lemma filter_sublist {A} (f : A → bool) (l : list A) :
  List.filter f l `sublist_of` l.
Proof.
  induction l as [|x l IH]; simpl; [constructor|].
  destruct (f x); by constructor.
Qed.

Lemma remaining_read_back (productID : value) (d : list document) :
  JSON_parse (JSON_stringify (remaining productID (JSON_parse d)))
  = remaining productID (JSON_parse d).
Proof.
  unfold remaining. by rewrite JSON_parse_filter, JSON_stringify_parse.
Qed.

(** X7.  On a readable and writable file [deleteProduct] returns, and
    stores, exactly the stored products whose id does not compare equal
    ([==]) to the one passed, in the order they had; [getProducts] then
    reads the list that was returned. *)
Theorem deleteProduct_removes_matching
    (st : fs) (d : list document) (productID : value) :
  contents st = Some d → writable st = true →
  ∃ l st',
    deleteProduct productID st = (Returns l, st') ∧
    (∀ p, p ∈ l ↔
          p ∈ JSON_parse d ∧ LooseEquals (prop p "id") productID = false) ∧
    l `sublist_of` JSON_parse d ∧
    getProducts st' = (Returns (Some l), st').
Proof.
  intros Hd Hw. rewrite (deleteProduct_eq st d productID Hd), Hw.
  eexists _, _. split; [done|]. split; [|split].
  - intros p. unfold remaining.
    rewrite !list_elem_of_In, filter_In, negb_true_iff. done.
  - apply filter_sublist.
  - rewrite getProducts_eq. simpl. by rewrite remaining_read_back.
Qed.

(** X8.  A product that was deleted is not found any more: after
    [deleteProduct] on a readable and writable file, [getProductById]
    with the same identifier returns [undefined]. *)
Theorem deleteProduct_then_getProductById
    (st : fs) (d : list document) (productID : value) :
  contents st = Some d → writable st = true →
  getProductById productID (deleteProduct productID st).2
  = (Returns None, (deleteProduct productID st).2).
Proof.
  intros Hd Hw. rewrite (deleteProduct_eq st d productID Hd), Hw. simpl.
  erewrite getProductById_eq; [|done].
  rewrite remaining_read_back, find_none_all; [done|].
  intros p Hp. unfold remaining in Hp.
  apply list_elem_of_In, filter_In in Hp as [_ Hp].
  apply negb_true_iff in Hp.
  destruct (StrictEquals (prop p "id") productID) eqn:Hs; [|done].
  apply StrictEquals_LooseEquals in Hs. congruence.
Qed.

Lemma updated_lookup (productID : value) (o : object) (l : list object)
    (i : nat) (p : object) :
  l !! i = Some p →
  updated productID o l !! i
  = Some (if StrictEquals (prop p "id") productID
          then spreadUpdate p (prop o "title") (prop o "description")
                 (prop o "price") (prop o "thumbnail") (prop o "code")
                 (prop o "stock")
          else p).
Proof.
  intros Hp. unfold updated. change (map ?f l) with (f <$> l).
  by rewrite list_lookup_fmap, Hp.
Qed.

Lemma JSON_parse_lookup (d : list document) (i : nat) :
  JSON_parse d !! i = (fmap JSON_parse_value) <$> d !! i.
Proof. unfold JSON_parse. change (map ?f d) with (f <$> d). apply list_lookup_fmap. Qed.

Lemma JSON_stringify_lookup (l : list object) (i : nat) :
  JSON_stringify l !! i = omap JSON_stringify_value <$> l !! i.
Proof. unfold JSON_stringify. change (map ?f l) with (f <$> l). apply list_lookup_fmap. Qed.

Lemma updated_none (productID : value) (o : object) (l : list object) :
  (∀ p, p ∈ l → StrictEquals (prop p "id") productID = false) →
  updated productID o l = l.
Proof.
  unfold updated. induction l as [|p l IH]; intros Hall; simpl; [done|].
  rewrite (Hall p) by apply list_elem_of_here.
  f_equal. apply IH. intros q Hq. apply Hall. by apply list_elem_of_further.
Qed.

(** X9.  [updateProduct] touches only the records whose id is strictly
    equal to the one passed.  On a readable and writable file it returns
    a list as long as the stored one, in which every other record is the
    stored record, and the file keeps those records as they were; when no
    record has that id the call still returns the whole list (there is no
    not-found result) and the file is what it was. *)
Theorem updateProduct_leaves_other_records
    (st : fs) (d : list document) (productID : value) (o : object) :
  contents st = Some d → writable st = true →
  ∃ l d',
    updateProduct productID (Obj o) st
    = (Returns (Some l), {| contents := Some d'; writable := true |}) ∧
    length l = length d ∧ length d' = length d ∧
    (∀ i x, d !! i = Some x →
            StrictEquals (prop (JSON_parse_value <$> x) "id") productID = false →
            l !! i = Some (JSON_parse_value <$> x) ∧ d' !! i = Some x) ∧
    ((∀ p, p ∈ JSON_parse d → StrictEquals (prop p "id") productID = false) →
     l = JSON_parse d ∧ d' = d).
Proof.
  intros Hd Hw. rewrite (updateProduct_eq st d productID o Hd), Hw.
  eexists _, _. split; [done|].
  split; [|split; [|split]].
  - unfold updated, JSON_parse. by rewrite !length_map.
  - unfold JSON_stringify, updated, JSON_parse. by rewrite !length_map.
  - intros i x Hx Hid.
    assert (Hl : updated productID o (JSON_parse d) !! i
                 = Some (JSON_parse_value <$> x)).
    { rewrite (updated_lookup _ _ _ i (JSON_parse_value <$> x)).
      - by rewrite Hid.
      - by rewrite JSON_parse_lookup, Hx. }
    split; [done|].
    rewrite JSON_stringify_lookup, Hl. simpl.
    by rewrite stringify_parse_document.
  - intros Hnone. rewrite (updated_none _ _ _ Hnone).
    by rewrite JSON_stringify_parse.
Qed.

(** X10.  [updateProduct] does not check the code it writes.  When the
    payload carries the code of a stored product, the record updated ends
    with that same code: after the call two positions of the file hold
    one code. *)
Theorem updateProduct_can_duplicate_code
    (st : fs) (d : list document) (productID : value) (o : object)
    (i j : nat) (x y : document) (c : json) :
  contents st = Some d → writable st = true →
  d !! i = Some x → d !! j = Some y → i ≠ j →
  StrictEquals (prop (JSON_parse_value <$> x) "id") productID = true →
  y !! "code" = Some c → prop o "code" = JSON_parse_value c →
  ∃ d', contents (updateProduct productID (Obj o) st).2 = Some d' ∧
        stored_codes d' !! i = Some (Some c) ∧
        stored_codes d' !! j = Some (Some c).
Proof.
  intros Hd Hw Hx Hy Hij Hid Hc Ho.
  rewrite (updateProduct_eq st d productID o Hd), Hw. simpl.
  eexists. split; [done|].
  assert (Hup : ∀ p : object,
            omap JSON_stringify_value
              (spreadUpdate p (prop o "title") (prop o "description")
                 (prop o "price") (prop o "thumbnail") (prop o "code")
                 (prop o "stock")) !! "code" = Some c).
  { intros p. rewrite lookup_omap, spreadUpdate_required by in_required.
    simpl. rewrite Ho. apply stringify_parse_value. }
  unfold stored_codes. rewrite !list_lookup_fmap, !JSON_stringify_lookup.
  rewrite (updated_lookup _ _ _ i (JSON_parse_value <$> x))
    by (by rewrite JSON_parse_lookup, Hx).
  rewrite (updated_lookup _ _ _ j (JSON_parse_value <$> y))
    by (by rewrite JSON_parse_lookup, Hy).
  rewrite Hid. simpl. split; [by rewrite Hup|].
  destruct (StrictEquals (prop (JSON_parse_value <$> y) "id") productID);
    [by rewrite Hup|].
  by rewrite stringify_parse_document, Hc.
Qed.



(** ** Further properties of CartManagerMongo *)



Lemma findOneAndUpdate_eq (cartId : string) (l : list item) (st : db)
    (lis old : list lineItem) :
  connected st = true → carts st !! cartId = Some old →
  castItems l st = (Returns lis, st) →
  findOneAndUpdate cartId l st = (Returns (Value lis), with_cart st cartId lis).
Proof.
  intros Hc Hold Hcast. unfold findOneAndUpdate, bind, with_cart.
  by rewrite Hcast, Hc, Hold.
Qed.

(** What [getCartById] can return; the database is not changed. *)
Lemma getCartById_cases (st : db) (cartId : string) :
  getCartById cartId st = (Returns Undefined, st) ∧ connected st = false ∨
  getCartById cartId st = (Returns Null, st) ∧ carts st !! cartId = None ∨
  ∃ lis, carts st !! cartId = Some lis ∧ connected st = true ∧
         getCartById cartId st
         = (Returns (Value {| products := map (populate st) lis |}), st).
Proof.
  unfold getCartById, try_catch, findOne_populate_lean, exec.
  destruct (connected st); [|by left].
  destruct (carts st !! cartId) as [lis|]; [|by right; left].
  right. right. by exists lis.
Qed.

Lemma productManager_getProductById_cases (st : db) (productId : string) :
  productManager_getProductById productId st = (Returns None, st) ∨
  ∃ o, catalog st !! productId = Some o ∧ connected st = true ∧
       productManager_getProductById productId st
       = (Returns (Some {| _id := productId; fields := o |}), st).
Proof.
  unfold productManager_getProductById, try_catch, exec.
  destruct (connected st); [|by left].
  destruct (catalog st !! productId) as [o|]; [|by left].
  right. by exists o.
Qed.

Lemma map_written_back_resolved (st : db) (l : list lineItem) :
  Forall (resolved st) l → map (written_back st) l = l.
Proof.
  induction 1 as [|li l (pid & Hp & Hcat) _ IH]; simpl; [done|].
  by rewrite (written_back_resolved st li pid Hp Hcat), IH.
Qed.

Lemma castItems_populate_resolved (st : db) (l : list lineItem) :
  Forall (resolved st) l →
  castItems (map (populate st) l) st = (Returns l, st).
Proof.
  intros Hl.
  pose proof (castItems_populate st st l [] [] eq_refl) as H.
  by rewrite !app_nil_r, (map_written_back_resolved st l Hl) in H.
Qed.

(** X13.  [updateQuantityOfProduct] never changes the database.  Because
    the line items it searches are populated, for every database, cart,
    argument and product identifier (other than the two strings a
    populated reference prints as) the database after the call is the
    database before it: no quantity is ever updated. *)
Theorem updateQuantityOfProduct_never_updates (st : db)
    (cartId productId : string) (newQuantity : argument) :
  productId ≠ "[object Object]" → productId ≠ "null" →
  (updateQuantityOfProduct cartId productId newQuantity st).2 = st.
Proof.
  intros Hobj Hnull.
  unfold updateQuantityOfProduct, try_catch, bind at 1.
  destruct (productManager_getProductById_cases st productId)
    as [Hp | (o & _ & _ & Hp)];
  destruct (getCartById_cases st cartId)
    as [[Hc _] | [[Hc _] | (lis & _ & _ & Hc)]];
    rewrite Hc; unfold bind at 1; rewrite Hp; try done.
  unfold bind at 1. simpl.
  by rewrite (findItem_populate st productId lis Hobj Hnull).
Qed.











Lemma populate_resolved (st : db) (li : lineItem) :
  resolved st li →
  ∃ pid o, product_ref li = Some pid ∧
           product (populate st li) = Doc {| _id := pid; fields := o |}.
Proof.
  intros (pid & Hp & [o Ho]). exists pid, o. split; [done|].
  unfold populate. simpl. by rewrite Hp, Ho.
Qed.

(** The search of [deleteOneProductfromCart] among resolved line items. *)
Lemma findIndex_id_found (st : db) (productId : string)
    (l1 l2 : list lineItem) (li : lineItem) (i : nat) :
  Forall (resolved st) l1 → resolved st li →
  Forall (fun x => product_ref x ≠ Some productId) l1 →
  product_ref li = Some productId →
  findIndex_id productId (map (populate st) (l1 ++ li :: l2)) i st
  = (Returns (Some (i + length l1)%nat), st).
Proof.
  intros Hres Hli Hno Hp. revert i.
  induction l1 as [|x l1 IH]; intros i; cbn [map app findIndex_id length].
  - destruct (populate_resolved st li Hli) as (pid & o & Hpid & ->).
    cbn [_id]. assert (pid = productId) as -> by congruence.
    rewrite String.eqb_refl. unfold ret. do 3 f_equal. lia.
  - apply Forall_cons in Hres as [Hx Hres].
    apply Forall_cons in Hno as [Hnx Hno].
    destruct (populate_resolved st x Hx) as (pid & o & Hpid & ->).
    cbn [_id]. destruct (String.eqb pid productId) eqn:E.
    + apply String.eqb_eq in E. congruence.
    + rewrite (IH Hres Hno (S i)). do 3 f_equal. lia.
Qed.

Lemma findIndex_id_absent (st : db) (productId : string)
    (l : list lineItem) (i : nat) :
  Forall (resolved st) l →
  Forall (fun x => product_ref x ≠ Some productId) l →
  findIndex_id productId (map (populate st) l) i st = (Returns None, st).
Proof.
  intros Hres Hno. revert i.
  induction l as [|x l IH]; intros i; cbn [map findIndex_id]; [done|].
  apply Forall_cons in Hres as [Hx Hres].
  apply Forall_cons in Hno as [Hnx Hno].
  destruct (populate_resolved st x Hx) as (pid & o & Hpid & ->).
  cbn [_id]. destruct (String.eqb pid productId) eqn:E.
  - apply String.eqb_eq in E. congruence.
  - apply (IH Hres Hno).
Qed.

Lemma findIndex_id_blocked (st : db) (productId : string)
    (l1 l2 : list lineItem) (li : lineItem) (i : nat) :
  Forall (resolved st) l1 →
  Forall (fun x => product_ref x ≠ Some productId) l1 →
  product (populate st li) = RefNull →
  findIndex_id productId (map (populate st) (l1 ++ li :: l2)) i st
  = (Throws TypeError, st).
Proof.
  intros Hres Hno Hli. revert i.
  induction l1 as [|x l1 IH]; intros i; cbn [map app findIndex_id].
  - by rewrite Hli.
  - apply Forall_cons in Hres as [Hx Hres].
    apply Forall_cons in Hno as [Hnx Hno].
    destruct (populate_resolved st x Hx) as (pid & o & Hpid & ->).
    cbn [_id]. destruct (String.eqb pid productId) eqn:E.
    + apply String.eqb_eq in E. congruence.
    + apply (IH Hres Hno).
Qed.

Lemma splice_middle {A} (l1 l2 : list A) (x : A) :
  (take (0 + length l1) (l1 ++ x :: l2)
   ++ drop (S (0 + length l1)) (l1 ++ x :: l2))%list = (l1 ++ l2)%list.
Proof.
  simpl. rewrite take_app_length.
  by rewrite drop_app_ge, (Nat.sub_succ_l _ _ (Nat.le_refl _)), Nat.sub_diag
    by lia.
Qed.

(** [deleteOneProductfromCart] when the first line item of the product
    is reached through resolved line items. *)
Lemma deleteOneProductfromCart_eq (st : db)
    (cartId productId : string) (l1 l2 : list lineItem) (li : lineItem) :
  connected st = true →
  carts st !! cartId = Some (l1 ++ li :: l2)%list →
  Forall (resolved st) (l1 ++ li :: l2) →
  product_ref li = Some productId →
  Forall (fun x => product_ref x ≠ Some productId) l1 →
  deleteOneProductfromCart cartId productId st
  = (Returns (Value (l1 ++ l2)%list), with_cart st cartId (l1 ++ l2)).
Proof.
  intros Hc Hcart Hres Hp Hno.
  pose proof Hres as Hall.
  apply Forall_app in Hres as [Hres1 Hres2].
  apply Forall_cons in Hres2 as [Hli Hres2].
  unfold deleteOneProductfromCart, try_catch, bind at 1.
  rewrite (getCartById_eq st cartId _ Hc Hcart).
  unfold bind at 1. simpl. unfold bind at 1.
  rewrite (findIndex_id_found st productId l1 l2 li 0 Hres1 Hli Hno Hp).
  rewrite map_app. cbn [map].
  rewrite <- (length_map (populate st) l1), splice_middle, <- map_app.
  rewrite (findOneAndUpdate_eq cartId _ st (l1 ++ l2) (l1 ++ li :: l2));
    [done..|].
  apply castItems_populate_resolved, Forall_app. by split.
Qed.

(** X16.  In a cart all of whose line items name products of the
    catalog, [deleteOneProductfromCart] removes the first line item of
    the product and nothing else: the line items before and after it stay
    as they were, in order, and the updated list is returned. *)
Theorem deleteOneProductfromCart_removes_first (st : db)
    (cartId productId : string) (l1 l2 : list lineItem) (li : lineItem) :
  connected st = true →
  carts st !! cartId = Some (l1 ++ li :: l2)%list →
  Forall (resolved st) (l1 ++ li :: l2) →
  product_ref li = Some productId →
  Forall (fun x => product_ref x ≠ Some productId) l1 →
  deleteOneProductfromCart cartId productId st
  = (Returns (Value (l1 ++ l2)%list), with_cart st cartId (l1 ++ l2)).
Proof. apply deleteOneProductfromCart_eq. Qed.

(** X17.  In a cart all of whose line items name products of the
    catalog and none of which is for the product passed,
    [deleteOneProductfromCart] returns [undefined] and leaves the
    database as it was. *)
Theorem deleteOneProductfromCart_absent (st : db)
    (cartId productId : string) (lis : list lineItem) :
  connected st = true → carts st !! cartId = Some lis →
  Forall (resolved st) lis →
  Forall (fun x => product_ref x ≠ Some productId) lis →
  deleteOneProductfromCart cartId productId st = (Returns Undefined, st).
Proof.
  intros Hc Hcart Hres Hno.
  unfold deleteOneProductfromCart, try_catch, bind at 1.
  rewrite (getCartById_eq st cartId _ Hc Hcart).
  unfold bind at 1. simpl. unfold bind at 1.
  by rewrite (findIndex_id_absent st productId lis 0 Hres Hno).
Qed.

(** X18.  A line item whose product is gone blocks the removal of what
    comes after it.  When a line item with no reference, or with a
    reference to a product that is not in the catalog, comes before the
    first line item of the product passed, reading [item.product._id]
    throws on it: [deleteOneProductfromCart] returns [undefined] and the
    database is left as it was, though the cart may hold the product
    further on. *)
Theorem deleteOneProductfromCart_blocked (st : db)
    (cartId productId : string) (l1 l2 : list lineItem) (li : lineItem) :
  connected st = true →
  carts st !! cartId = Some (l1 ++ li :: l2)%list →
  Forall (resolved st) l1 →
  Forall (fun x => product_ref x ≠ Some productId) l1 →
  (product_ref li = None ∨
   ∃ pid, product_ref li = Some pid ∧ catalog st !! pid = None) →
  deleteOneProductfromCart cartId productId st = (Returns Undefined, st).
Proof.
  intros Hc Hcart Hres Hno Hgone.
  assert (Hnull : product (populate st li) = RefNull).
  { unfold populate. simpl.
    destruct Hgone as [-> | (pid & -> & ->)]; done. }
  unfold deleteOneProductfromCart, try_catch, bind at 1.
  rewrite (getCartById_eq st cartId _ Hc Hcart).
  unfold bind at 1. simpl. unfold bind at 1.
  by rewrite (findIndex_id_blocked st productId l1 l2 li 0 Hres Hno Hnull).
Qed.





(** X22.  Against a database that is not connected every call of the
    cart manager returns [undefined] and leaves the database as it was;
    none throws. *)
Theorem cart_calls_when_disconnected (st : db) (cartId productId : string)
    (newProductList : productPage) (newQuantity : argument) :
  connected st = false →
  getCartById cartId st = (Returns Undefined, st) ∧
  addProductToCart cartId productId st = (Returns Undefined, st) ∧
  deleteOneProductfromCart cartId productId st = (Returns Undefined, st) ∧
  updateAllProductsOfCart cartId newProductList st = (Returns Undefined, st) ∧
  updateQuantityOfProduct cartId productId newQuantity st
  = (Returns Undefined, st) ∧
  deleteAllProductsfromCart cartId st = (Returns Undefined, st).
Proof.
  intros Hc.
  assert (Hg : getCartById cartId st = (Returns Undefined, st)).
  { unfold getCartById, try_catch, findOne_populate_lean, exec. by rewrite Hc. }
  assert (Hp : productManager_getProductById productId st = (Returns None, st)).
  { unfold productManager_getProductById, try_catch, exec. by rewrite Hc. }
  repeat split.
  - exact Hg.
  - unfold addProductToCart, try_catch, bind at 1. rewrite Hg.
    unfold bind at 1. by rewrite Hp.
  - unfold deleteOneProductfromCart, try_catch, bind at 1. by rewrite Hg.
  - unfold updateAllProductsOfCart, try_catch, bind at 1. rewrite Hg.
    destruct newProductList as [| |[|p docs]]; done.
  - unfold updateQuantityOfProduct, try_catch, bind at 1. rewrite Hg.
    unfold bind at 1. by rewrite Hp.
  - unfold deleteAllProductsfromCart, try_catch, findOneAndUpdate, bind. simpl.
    by rewrite Hc.
Qed.






(** X24.  Removing what was just added restores the cart.  In a cart all
    of whose line items name products of the catalog and none of which is
    for the product, [addProductToCart] followed by
    [deleteOneProductfromCart] for that product leaves the database
    exactly as it was before the two calls. *)
Theorem addProductToCart_then_deleteOneProductfromCart (st : db)
    (cartId productId : string) (lis : list lineItem) (o : object) :
  connected st = true → carts st !! cartId = Some lis →
  catalog st !! productId = Some o →
  productId ≠ "[object Object]" → productId ≠ "null" →
  Forall (resolved st) lis →
  Forall (fun x => product_ref x ≠ Some productId) lis →
  (deleteOneProductfromCart cartId productId
     (addProductToCart cartId productId st).2).2 = st.
Proof.
  intros Hc Hcart Ho Hobj Hnull Hres Hno.
  rewrite (addProductToCart_eq st cartId productId lis o Hc Hcart Ho Hobj Hnull).
  rewrite (map_written_back_resolved st lis Hres). simpl.
  set (st1 := {| carts := <[cartId := (lis ++ [inserted productId])%list]> (carts st);
                 catalog := catalog st; connected := connected st |}).
  rewrite (deleteOneProductfromCart_eq st1 cartId productId lis []
             (inserted productId)).
  - simpl. rewrite app_nil_r. unfold with_cart, st1. simpl.
    rewrite insert_insert_eq, (insert_id _ _ _ Hcart).
    by destruct st.
  - done.
  - unfold st1. simpl. by rewrite lookup_insert_eq.
  - apply Forall_app. split; [done|].
    repeat constructor. exists productId. split; [done|].
    unfold st1. simpl. by rewrite Ho.
  - done.
  - done.
Qed.

(** X25.  The calls whose body is wrapped in [try] with a handler that
    returns never throw, on any state and for any argument: of the
    product manager [getProducts], [#getNewID], [addProduct] and
    [updateProduct]; of the cart manager [getCartById],
    [addProductToCart], [deleteOneProductfromCart],
    [updateAllProductsOfCart], [updateQuantityOfProduct] and
    [deleteAllProductsfromCart]. *)
Theorem guarded_calls_never_throw (st : fs) (sd : db) (a : argument)
    (productID : value) (cartId productId : string)
    (newProductList : productPage) (newQuantity : argument) :
  (∃ r st', getProducts st = (Returns r, st')) ∧
  (∃ r st', getNewID st = (Returns r, st')) ∧
  (∃ r st', addProduct a st = (Returns r, st')) ∧
  (∃ r st', updateProduct productID a st = (Returns r, st')) ∧
  (∃ r sd', getCartById cartId sd = (Returns r, sd')) ∧
  (∃ r sd', addProductToCart cartId productId sd = (Returns r, sd')) ∧
  (∃ r sd', deleteOneProductfromCart cartId productId sd = (Returns r, sd')) ∧
  (∃ r sd', updateAllProductsOfCart cartId newProductList sd = (Returns r, sd')) ∧
  (∃ r sd', updateQuantityOfProduct cartId productId newQuantity sd
            = (Returns r, sd')) ∧
  (∃ r sd', deleteAllProductsfromCart cartId sd = (Returns r, sd')).
Proof.
  repeat split;
    first [ apply (try_catch_returns _ (fun _ => None))
          | apply (try_catch_returns _ (fun _ => VUndefined))
          | apply (try_catch_returns _ (fun _ => Undefined)) ].
Qed.

End Managers.

(** ** Closed examples *)



(** C2 fails as stated: the payload has no price, the stored record has
    price 5, and after the update the record's price is [undefined] in
    the list returned and absent from the file. *)
Lemma updateProduct_loses_unsupplied_price :
  ({[ "title" := VStr "new" ]} : object) !! "price" = None ∧
  product_doc 1 "a" !! "price" = Some (JNum 5) ∧
  ∃ l d',
    updateProduct (VNum 1) (Obj {[ "title" := VStr "new" ]}) ordered_file
    = (Returns (Some l), {| contents := Some d'; writable := true |}) ∧
    (l !! 0%nat ≫= fun p : object => p !! "price") = Some VUndefined ∧
    (d' !! 0%nat ≫= fun x : document => x !! "price") = None.
Proof.
  split; [by vm_compute|]. split; [by vm_compute|].
  eexists _, _. split; [reflexivity|]. split; by vm_compute.
Qed.

Lemma updateProduct_overrides_required_keeps_rest_witness :
  ∃ (l : list object) (p' : object),
    (updateProduct (VNum 1) (Obj {[ "title" := VStr "new" ]}) ordered_file).1
    = Returns (Some l) ∧
    l !! 0%nat = Some p' ∧
    p' !! "id" = Some (VNum 1) ∧ p' !! "title" = Some (VStr "new").
Proof.
  destruct (updateProduct_overrides_required_keeps_rest ordered_file
              [product_doc 1 "a"; product_doc 2 "b"] (VNum 1)
              {[ "title" := VStr "new" ]} 0%nat (product_doc 1 "a"))
    as (l & p' & x' & Hrun & Hl & _ & Hrest & Hreq & _);
    [reflexivity | reflexivity | reflexivity | by vm_compute |].
  exists l, p'. rewrite Hrun. repeat split; [exact Hl | |].
  - rewrite (Hrest "id"); [by vm_compute|].
    intros Hin. apply list_elem_of_In in Hin. simpl in Hin.
    repeat (destruct Hin as [Hin|Hin]; [discriminate|]). done.
  - rewrite (Hreq "title"); [by vm_compute|].
    apply list_elem_of_In. simpl. tauto.
Defined.

Lemma addProduct_rejects_duplicate_code_witness :
  addProduct decimal (Obj (payload "b" 3)) ordered_file
  = (Returns None, ordered_file).
Proof.
  apply (addProduct_rejects_duplicate_code decimal ordered_file
           [product_doc 1 "a"; product_doc 2 "b"] (payload "b" 3)
           (JSON_parse_value <$> product_doc 2 "b")).
  - reflexivity.
  - apply list_elem_of_In. simpl. tauto.
  - by vm_compute.
Defined.

Lemma deleteProduct_absent_id_unchanged_witness :
  contents (deleteProduct decimal (VNum 7) ordered_file).2
  = Some [product_doc 1 "a"; product_doc 2 "b"].
Proof.
  apply (deleteProduct_absent_id_unchanged decimal ordered_file
           [product_doc 1 "a"; product_doc 2 "b"] (VNum 7)); [reflexivity|].
  intros p Hp. apply list_elem_of_In in Hp. simpl in Hp.
  destruct Hp as [<-|[<-|[]]]; by vm_compute.
Defined.

(** The comparison of [deleteProduct] converts its operands, the one of
    [getProductById] does not: the string ["1"] names the product with id
    1 for the first and no product for the second. *)
Lemma deleteProduct_string_id :
  contents (deleteProduct decimal (VStr "1") ordered_file).2
  = Some [product_doc 2 "b"] ∧
  getProductById (VStr "1") ordered_file = (Returns None, ordered_file).
Proof. split; by vm_compute. Qed.


Lemma addProductToCart_duplicates_line_item_witness :
  ∃ lis',
    carts (addProductToCart decimal cart1 lamp_id sample_db).2 !! cart1
    = Some (lis' ++ [inserted lamp_id])%list ∧
    {| product_ref := Some lamp_id; stored_quantity := Some 1 |} ∈ lis'.
Proof.
  destruct (addProductToCart_duplicates_line_item decimal sample_db
              cart1 lamp_id
              [ {| product_ref := Some lamp_id; stored_quantity := Some 1 |} ]
              {[ "title" := VStr "lamp" ]} 1)
    as (lis' & Hcart & _ & Hin);
    [reflexivity | reflexivity | reflexivity | by vm_compute | by vm_compute
    | apply list_elem_of_here |].
  by exists lis'.
Defined.

(** The failing input of C4, evaluated: the cart has one line item for
    the product, and after the call it has two, both at quantity 1. *)
Lemma addProductToCart_sample :
  addProductToCart decimal cart1 lamp_id sample_db
  = (Returns
       (Value [ {| product_ref := Some lamp_id; stored_quantity := Some 1 |};
                {| product_ref := Some lamp_id; stored_quantity := Some 1 |} ]),
     {| carts :=
          {[ cart1 :=
               [ {| product_ref := Some lamp_id; stored_quantity := Some 1 |};
                 {| product_ref := Some lamp_id; stored_quantity := Some 1 |} ] ]};
        catalog := catalog sample_db;
        connected := true |}).
Proof. by vm_compute. Qed.

Lemma updateQuantityOfProduct_returns_null_witness :
  isNaN decimal (prop ({[ "quantity" := VStr "abc" ]} : object) "quantity") = true ∧
  updateQuantityOfProduct decimal cart1 lamp_id
    (Obj {[ "quantity" := VStr "abc" ]}) sample_db
  = (Returns Null, sample_db).
Proof.
  split; [by vm_compute|].
  apply (updateQuantityOfProduct_returns_null decimal sample_db cart1 lamp_id
           [ {| product_ref := Some lamp_id; stored_quantity := Some 1 |} ]
           {[ "title" := VStr "lamp" ]});
    [reflexivity | reflexivity | reflexivity | by vm_compute | by vm_compute].
Defined.

(** The sibling that compares [item.product._id] does find the line item. *)
Lemma deleteOneProductfromCart_sample :
  deleteOneProductfromCart decimal cart1 lamp_id sample_db
  = (Returns (Value []),
     {| carts := {[ cart1 := [] ]};
        catalog := catalog sample_db;
        connected := true |}).
Proof. by vm_compute. Qed.

(** ** Closed examples of the further properties *)

Ltac all_resolved :=
  repeat (constructor;
          [eexists; split; [reflexivity | eexists; by vm_compute] |]);
  constructor.

Ltac none_for :=
  repeat (constructor; [by vm_compute|]); constructor.

Lemma getProductById_first_match_witness :
  ∃ r, getProductById (VNum 2) ordered_file = (Returns r, ordered_file).
Proof.
  destruct (getProductById_first_match ordered_file
              [product_doc 1 "a"; product_doc 2 "b"] (VNum 2) eq_refl)
    as (r & Hr & _).
  by exists r.
Defined.

Lemma getProductById_string_never_found_witness :
  getProductById (VStr "2") ordered_file = (Returns None, ordered_file).
Proof.
  apply (getProductById_string_never_found ordered_file
           [product_doc 1 "a"; product_doc 2 "b"] [1; 2] "2");
    [reflexivity | by vm_compute].
Defined.

Lemma unreadable_file_stays_unreadable_witness :
  after_all decimal [AddProduct (Obj (payload "c" 3)); DeleteProduct (VNum 1)]
    missing_file = missing_file.
Proof.
  by apply (unreadable_file_stays_unreadable decimal "./src/products.json").
Defined.





Lemma deleteProduct_removes_matching_witness :
  ∃ l st', deleteProduct decimal (VNum 1) ordered_file = (Returns l, st') ∧
           getProducts st' = (Returns (Some l), st').
Proof.
  destruct (deleteProduct_removes_matching decimal ordered_file
              [product_doc 1 "a"; product_doc 2 "b"] (VNum 1) eq_refl eq_refl)
    as (l & st' & Hrun & _ & _ & Hread).
  by exists l, st'.
Defined.

Lemma deleteProduct_then_getProductById_witness :
  getProductById (VNum 1) (deleteProduct decimal (VNum 1) ordered_file).2
  = (Returns None, (deleteProduct decimal (VNum 1) ordered_file).2).
Proof.
  by apply (deleteProduct_then_getProductById decimal ordered_file
              [product_doc 1 "a"; product_doc 2 "b"] (VNum 1)).
Defined.

Lemma updateProduct_leaves_other_records_witness :
  ∃ l d',
    updateProduct (VNum 1) (Obj (payload "z" 9)) ordered_file
    = (Returns (Some l), {| contents := Some d'; writable := true |}) ∧
    d' !! 1%nat = Some (product_doc 2 "b").
Proof.
  destruct (updateProduct_leaves_other_records ordered_file
              [product_doc 1 "a"; product_doc 2 "b"] (VNum 1) (payload "z" 9)
              eq_refl eq_refl)
    as (l & d' & Hrun & _ & _ & Hother & _).
  exists l, d'. split; [exact Hrun|].
  by apply (Hother 1%nat (product_doc 2 "b")); [|vm_compute].
Defined.

Lemma updateProduct_can_duplicate_code_witness :
  ∃ d', contents (updateProduct (VNum 1) (Obj (payload "b" 3)) ordered_file).2
        = Some d' ∧
        stored_codes d' !! 0%nat = Some (Some (JStr "b")) ∧
        stored_codes d' !! 1%nat = Some (Some (JStr "b")).
Proof.
  apply (updateProduct_can_duplicate_code ordered_file
           [product_doc 1 "a"; product_doc 2 "b"] (VNum 1) (payload "b" 3)
           0%nat 1%nat (product_doc 1 "a") (product_doc 2 "b") (JStr "b"));
    [reflexivity | reflexivity | reflexivity | reflexivity | lia
    | by vm_compute | by vm_compute | by vm_compute].
Defined.


Lemma updateQuantityOfProduct_never_updates_witness :
  (updateQuantityOfProduct decimal cart1 lamp_id
     (Obj {[ "quantity" := VNum 4 ]}) shop_db).2 = shop_db.
Proof.
  apply (updateQuantityOfProduct_never_updates decimal shop_db cart1 lamp_id);
    by vm_compute.
Defined.



Lemma deleteOneProductfromCart_removes_first_witness :
  deleteOneProductfromCart decimal cart1 chair_id shop_db
  = (Returns (Value [line lamp_id 1; line lamp_id 5]),
     with_cart shop_db cart1 [line lamp_id 1; line lamp_id 5]).
Proof.
  apply (deleteOneProductfromCart_removes_first decimal shop_db cart1 chair_id
           [line lamp_id 1] [line lamp_id 5] (line chair_id 2));
    [reflexivity | by vm_compute | all_resolved | reflexivity | none_for].
Defined.

Lemma deleteOneProductfromCart_absent_witness :
  deleteOneProductfromCart decimal cart1 gone_id shop_db
  = (Returns Undefined, shop_db).
Proof.
  apply (deleteOneProductfromCart_absent decimal shop_db cart1 gone_id
           [line lamp_id 1; line chair_id 2; line lamp_id 5]);
    [reflexivity | by vm_compute | all_resolved | none_for].
Defined.

Lemma deleteOneProductfromCart_blocked_witness :
  deleteOneProductfromCart decimal cart2 chair_id shop_db
  = (Returns Undefined, shop_db).
Proof.
  apply (deleteOneProductfromCart_blocked decimal shop_db cart2 chair_id
           [] [line chair_id 1] (line gone_id 1));
    [reflexivity | by vm_compute | constructor | constructor |].
  right. exists gone_id. split; [reflexivity | by vm_compute].
Defined.




Lemma cart_calls_when_disconnected_witness :
  addProductToCart decimal cart1 lamp_id offline_db
  = (Returns Undefined, offline_db).
Proof.
  by destruct (cart_calls_when_disconnected decimal offline_db cart1 lamp_id
                 NoPayload Nullish eq_refl) as (_ & Hadd & _).
Defined.


Lemma addProductToCart_then_deleteOneProductfromCart_witness :
  (deleteOneProductfromCart decimal cart1 stool_id
     (addProductToCart decimal cart1 stool_id shop_db).2).2 = shop_db.
Proof.
  apply (addProductToCart_then_deleteOneProductfromCart decimal shop_db
           cart1 stool_id [line lamp_id 1; line chair_id 2; line lamp_id 5]
           {[ "title" := VStr "stool" ]});
    [reflexivity | by vm_compute | by vm_compute | by vm_compute
    | by vm_compute | all_resolved | none_for].
Defined.
